(** * Semantic graph analyzer: call-graph construction, manifest counting
      and the malware score

    A shallow embedding of [semantic_graphs.py] (graph builder and
    [analyze_malware_semantically]), of the graph part of
    [krono/analysis/feature_extraction.py], of
    [krono/analysis/graph_features.py] and of the per-package step of
    [cicmaldroid_batch_scoring.py].

    Conventions.
    - Python [int] is [Z]; sizes of containers are [nat].
    - Python [dict] is a [gmap], [frozenset] and the node set of a graph are
      [gset]s.
    - Python [float] is idealised as a real number ([R]): the rounding of
      binary64 arithmetic and of [math.tanh] / [math.log1p] is not part of
      the model.  Decimal literals are written as fractions. *)

From Stdlib Require Import Reals Lra ZArith String Ascii List.
From stdpp Require Import gmap strings list fin_maps.

#[local] Open Scope string_scope.
#[local] Open Scope Z_scope.

(** ** Strings *)

(** Python [p in s] on strings: substring containment. *)
Definition contains (p s : string) : bool :=
  match String.index 0 p s with
  | Some _ => true
  | None => false
  end.

(** Python [s.split(".")[-1]]: what follows the last dot, the whole string
    when there is none. *)
Fixpoint split_last_from (cur s : string) : string :=
  match s with
  | EmptyString => cur
  | String c rest =>
      if Ascii.eqb c "."%char then split_last_from EmptyString rest
      else split_last_from (cur ++ String c EmptyString) rest
  end.

Definition split_last (s : string) : string := split_last_from EmptyString s.

(** ** Directed weighted graphs ([networkx.DiGraph])

    A node set and one integer attribute [weight] per ordered pair. *)

Record DiGraph : Type := mkDiGraph {
  g_nodes : gset string;
  g_edges : gmap (string * string) Z
}.

Definition empty_graph : DiGraph := mkDiGraph ∅ ∅.

Definition number_of_nodes (G : DiGraph) : nat := size (g_nodes G).
Definition number_of_edges (G : DiGraph) : nat := size (g_edges G).

(** [G.add_edge(u, v, weight=w)]: both endpoints become nodes. *)
Definition add_edge (G : DiGraph) (u v : string) (w : Z) : DiGraph :=
  mkDiGraph ({[u]} ∪ ({[v]} ∪ g_nodes G)) (<[(u, v) := w]> (g_edges G)).

(** The accumulation step shared by both builders:
    [if G.has_edge(src, dst): G[src][dst]['weight'] += 1
     else: G.add_edge(src, dst, weight=1)];
    the lookup in the edge table is [has_edge] and the read of the weight
    in one. *)
Definition count_call (G : DiGraph) (src dst : string) : DiGraph :=
  match g_edges G !! (src, dst) with
  | Some w => mkDiGraph (g_nodes G) (<[(src, dst) := w + 1]> (g_edges G))
  | None => add_edge G src dst 1
  end.

(** [[(u,v) for u,v,d in G.edges(data=True) if d.get("weight",1) < min_weight]] *)
Definition light_edges (G : DiGraph) (min_weight : Z) : list (string * string) :=
  (map_to_list (filter (λ kv, kv.2 < min_weight) (g_edges G))).*1.

(** [G.remove_edges_from(l)]: the nodes stay. *)
Definition remove_edges_from (G : DiGraph) (l : list (string * string)) : DiGraph :=
  mkDiGraph (g_nodes G) (foldr delete (g_edges G) l).

Definition out_degree (G : DiGraph) (n : string) : nat :=
  size (filter (λ kv, kv.1.1 = n) (g_edges G)).

Definition in_degree (G : DiGraph) (n : string) : nat :=
  size (filter (λ kv, kv.1.2 = n) (g_edges G)).

(** [nx.isolates(G)]: the nodes without any incident edge. *)
Definition isolates (G : DiGraph) : list string :=
  filter (λ n, out_degree G n = 0%nat ∧ in_degree G n = 0%nat)
         (elements (g_nodes G)).

(** [G.remove_nodes_from(l)]: the nodes go, and every edge that touches one. *)
Definition remove_nodes_from (G : DiGraph) (l : list string) : DiGraph :=
  mkDiGraph (g_nodes G ∖ list_to_set l)
            (filter (λ kv, (kv.1.1 ∉ l) ∧ (kv.1.2 ∉ l)) (g_edges G)).

(** Sum of all edge weights: the number of raw calls that were counted. *)
Definition total_weight (G : DiGraph) : Z :=
  map_fold (λ _ w acc, w + acc) 0 (g_edges G).

(** [nx.density] of a directed graph: [m / (n (n - 1))], and 0 when there
    is no edge or at most one node. *)
Definition density (G : DiGraph) : R :=
  if (number_of_edges G =? 0)%nat || (number_of_nodes G <=? 1)%nat then 0%R
  else (INR (number_of_edges G)
        / (INR (number_of_nodes G) * (INR (number_of_nodes G) - 1)))%R.

(** ** The builder of [semantic_graphs.py]

    [build_api_graph_compact] up to the graph it returns (and writes to the
    graph file).  The disassembly is taken as already read; the [try] blocks
    that skip a class or a dex file whose accessors raise are not part of
    the model. *)

Module SemanticGraphs.

Definition STOP_CLASSES : gset string :=
  list_to_set
    [ "Ljava/lang/Object;"; "Ljava/lang/String;"; "Ljava/lang/StringBuilder;";
      "Ljava/lang/Integer;"; "Ljava/lang/Long;"; "Ljava/lang/Boolean;";
      "Ljava/lang/Class;"; "Ljava/lang/Thread;"; "Ljava/lang/Exception;" ].

Definition cap_per_method : nat := 50.

(** What the builder reads of the disassembly: per class its name and its
    methods, per method the classes of its call references
    ([callee.get_class_name()] for each entry of [get_xref_to()]), in
    order. *)
Record dex_class : Type := mkClass {
  get_name : string;
  get_methods : list (list string)
}.

(** [for i, (_, callee, _) in enumerate(xrefs)], with [i] the running
    index. *)
Fixpoint scan_xrefs (i : nat) (src : string) (xrefs : list string)
    (G : DiGraph) : DiGraph :=
  match xrefs with
  | [] => G
  | dst :: rest =>
      if (cap_per_method <=? i)%nat then G
      else scan_xrefs (S i) src rest
             (if String.eqb src dst then G else count_call G src dst)
  end.

Definition scan_class (G : DiGraph) (cls : dex_class) : DiGraph :=
  if decide (get_name cls ∈ STOP_CLASSES) then G
  else foldl (λ G xrefs, scan_xrefs 0 (get_name cls) xrefs G) G
             (get_methods cls).

Definition scan_classes (classes : list dex_class) : DiGraph :=
  foldl scan_class empty_graph classes.

Definition build_api_graph_compact (classes : list dex_class)
    (min_weight : Z) : DiGraph :=
  let G := scan_classes classes in
  if 1 <? min_weight then remove_edges_from G (light_edges G min_weight)
  else G.

Definition default_min_weight : Z := 2.

(** The same input with every method cut down to its first
    [cap_per_method] call references. *)
Definition truncate_class (cls : dex_class) : dex_class :=
  mkClass (get_name cls) (map (firstn cap_per_method) (get_methods cls)).

End SemanticGraphs.

(** ** The graph part of the builder of [feature_extraction.py]

    [build_api_graph_compact] of [krono/analysis/feature_extraction.py], from
    [cg = dx.get_call_graph()] to the graph written to the graph file; the
    API counters, the cache and the metadata are left out. *)

Module FeatureExtraction.

Definition STOP_CLASSES : gset string :=
  list_to_set
    [ "Ljava/lang/Object;"; "Ljava/lang/String;"; "Ljava/lang/StringBuilder;";
      "Landroid/view/View;"; "Landroid/app/Activity;";
      "Landroid/content/Context;" ].

(** A node of the method call graph [dx.get_call_graph()]. *)
Record method_node : Type := mkMethod {
  class_name : string;
  method_name : string
}.

Definition add_call (G : DiGraph) (edge : method_node * method_node) : DiGraph :=
  let src := class_name edge.1 in
  let dst := class_name edge.2 in
  if decide (src ∈ STOP_CLASSES ∨ dst ∈ STOP_CLASSES) then G
  else count_call G src dst.

Definition default_min_weight : Z := 1.

Definition build_api_graph_compact (cg_edges : list (method_node * method_node))
    (min_weight : Z) : DiGraph :=
  let G := foldl add_call empty_graph cg_edges in
  let G := remove_edges_from G (light_edges G min_weight) in
  remove_nodes_from G (isolates G).

End FeatureExtraction.

(** ** Constant tables of [semantic_graphs.py] *)

Definition CATEGORY_RULES : list (string * list string) :=
  [ ("network", ["Landroid/net"; "Ljava/net"; "HttpURLConnection"; "URLConnection";
                 "OkHttp"; "okhttp3"; "Volley"; "Socket"; "ServerSocket"]);
    ("telephony", ["Landroid/telephony"; "Telephony"; "TelephonyManager"]);
    ("sms", ["Sms"; "TextMessage"; "SmsManager"; "sendTextMessage";
             "sendMultipartTextMessage"; "android.provider.Telephony"]);
    ("crypto", ["Ljavax/crypto"; "Ljava/security"; "Cipher"; "MessageDigest";
                "KeyGenerator"; "SecretKey"; "encrypt"; "decrypt"; "AES"; "RSA"]);
    ("reflection", ["Ljava/lang/reflect"; "Class;->forName"; "getDeclaredMethod"]);
    ("dynamic", ["DexClassLoader"; "PathClassLoader"; "System.loadLibrary";
                 "System.load"; "dalvik.system.DexFile"; "InMemoryDexClassLoader"]);
    ("dangerous_permissions", ["DEVICE_ADMIN"; "SYSTEM_ALERT_WINDOW"; "WRITE_SETTINGS"]);
    ("file_operations", ["java.io.File"; "FileInputStream"; "FileOutputStream";
                         "RandomAccessFile"; "/system/"; "/data/data/";
                         "getExternalStorageDirectory"; "openFileOutput";
                         "openFileInput"; "deleteFile"]);
    ("device_info", ["getDeviceId"; "getSubscriberId"; "getSimSerialNumber";
                     "getLine1Number"; "Build.SERIAL"; "Settings.Secure.ANDROID_ID";
                     "WifiInfo.getMacAddress"; "BluetoothAdapter.getAddress";
                     "getInstalledPackages"; "getRunningTasks"]);
    ("location", ["LocationManager"; "GPS_PROVIDER"; "NETWORK_PROVIDER";
                  "getLastKnownLocation"; "requestLocationUpdates"; "getCellLocation"]);
    ("media_capture", ["Camera"; "MediaRecorder"; "AudioRecord"; "takePicture";
                       "startRecording"; "setAudioSource"; "setVideoSource"]);
    ("root_detection", ["/system/bin/su"; "/system/xbin/su"; "Superuser.apk"; "SuperSU";
                        "busybox"; "which su"; "Runtime.exec"; "ProcessBuilder"]);
    ("admin_operations", ["DevicePolicyManager"; "DeviceAdminReceiver"; "lockNow";
                          "wipeData"; "resetPassword"; "setPasswordQuality";
                          "ComponentName"]);
    ("obfuscation", ["String.charAt"; "StringBuilder.reverse"; "Base64.decode";
                     "Base64.encode"; "URLDecoder.decode"; "URLEncoder.encode";
                     "xor"; "\x"; "unicode"; "StringBuffer"]);
    ("background_ops", ["startService"; "bindService"; "ServiceConnection";
                        "BroadcastReceiver"; "sendBroadcast"; "registerReceiver";
                        "AlarmManager"; "PendingIntent"]);
    ("banking_targets", ["com.android.vending"; "market://"; "play.google.com";
                         "banking"; "wallet"; "payment"; "paypal"; "bank"]);
    ("native_code", ["System.loadLibrary"; "native"; "JNI"; "NDK"; ".so"; "arm64";
                     "x86"; "mips"]);
    ("anti_debug", ["Debug.isDebuggerConnected"; "ActivityManager.isUserAMonkey";
                    "Build.TAGS"; "test-keys"; "ApplicationInfo.FLAG_DEBUGGABLE";
                    "/proc/self/status"; "TracerPid"]);
    ("modern_libs", ["androidx."; "com.google.firebase"; "org.json"; "kotlin.coroutines"]);
    ("privileged_ops", []) ].

(** The keys of [CATEGORY_RULES], in the order of the dict. *)
Definition category_names : list string := CATEGORY_RULES.*1.

Definition PERM_TO_CATEGORY : gmap string string :=
  list_to_map
    [ ("READ_SMS", "sms"); ("RECEIVE_SMS", "sms"); ("SEND_SMS", "sms");
      ("RECEIVE_WAP_PUSH", "sms");
      ("READ_PHONE_STATE", "device_info"); ("GET_ACCOUNTS", "device_info");
      ("GET_TASKS", "device_info");
      ("READ_CONTACTS", "device_info"); ("WRITE_CONTACTS", "device_info");
      ("CAMERA", "media_capture"); ("RECORD_AUDIO", "media_capture");
      ("ACCESS_FINE_LOCATION", "location"); ("ACCESS_COARSE_LOCATION", "location");
      ("READ_EXTERNAL_STORAGE", "file_operations");
      ("WRITE_EXTERNAL_STORAGE", "file_operations");
      ("SYSTEM_ALERT_WINDOW", "admin_operations");
      ("WRITE_SETTINGS", "admin_operations");
      ("DEVICE_ADMIN", "admin_operations");
      ("RECEIVE_BOOT_COMPLETED", "background_ops"); ("WAKE_LOCK", "background_ops");
      ("INSTALL_PACKAGES", "privileged_ops"); ("RESTART_PACKAGES", "privileged_ops");
      ("READ_LOGS", "privileged_ops"); ("STATUS_BAR", "privileged_ops");
      ("EXPAND_STATUS_BAR", "privileged_ops"); ("READ_FRAME_BUFFER", "privileged_ops");
      ("com.google.android.c2dm.permission.RECEIVE", "background_ops") ].

Definition BENIGN_HINT_PERMS : gset string :=
  list_to_set
    [ "USE_FINGERPRINT"; "NFC"; "NFC_TRANSACTION"; "SMARTCARD";
      "org.simalliance.openmobileapi.SMARTCARD";
      "AUTHENTICATE_ACCOUNTS"; "MANAGE_ACCOUNTS";
      "com.google.android.providers.gsf.permission.READ_GSERVICES";
      "BLUETOOTH"; "BLUETOOTH_ADMIN";
      "com.google.android.c2dm.permission.RECEIVE" ].

(** The behaviour weights [W], kept in tenths: [15.5] is [155]. *)
Definition W_tenths : gmap string Z :=
  list_to_map
    [ ("sms", 155); ("dangerous_permissions", 162); ("admin_operations", 150);
      ("dynamic", 150); ("telephony", 118); ("root_detection", 115);
      ("device_info", 70); ("banking_targets", 115); ("media_capture", 110);
      ("network", 105); ("crypto", 58); ("location", 55);
      ("file_operations", 30); ("anti_debug", 53); ("background_ops", 48);
      ("native_code", 50); ("reflection", 48); ("obfuscation", 46);
      ("modern_libs", 18); ("privileged_ops", 85) ].

(** [W.get(cat, 1.0)] *)
Definition W (cat : string) : R :=
  match W_tenths !! cat with
  | Some t => (IZR t / 10)%R
  | None => 1%R
  end.

Definition caps_large : list (string * Z) :=
  [ ("sms", 1); ("dangerous_permissions", 3); ("admin_operations", 1);
    ("device_info", 1); ("file_operations", 1); ("background_ops", 1);
    ("location", 1); ("media_capture", 1); ("privileged_ops", 1) ].

Definition caps_normal : list (string * Z) :=
  [ ("sms", 2); ("dangerous_permissions", 6); ("admin_operations", 2);
    ("device_info", 3); ("file_operations", 3); ("background_ops", 3);
    ("location", 3); ("media_capture", 3); ("privileged_ops", 2) ].

(** ** Category counters ([counts_g], [counts_m]) *)

(** [{k: 0 for k in CATEGORY_RULES}] *)
Definition zero_counts : gmap string Z :=
  list_to_map ((λ k, (k, 0)) <$> category_names).

(** [counts.get(k, 0)]; every key read by the analyzer is a key of
    [CATEGORY_RULES], so it is [counts[k]] as well. *)
Definition get (counts : gmap string Z) (k : string) : Z :=
  default 0 (counts !! k).

(** [counts[k] += d] *)
Definition add_to (k : string) (d : Z) (counts : gmap string Z) : gmap string Z :=
  <[k := get counts k + d]> counts.

(** [sum(counts.values())] *)
Definition sum_values (counts : gmap string Z) : Z :=
  foldl (λ acc cat, acc + get counts cat) 0 category_names.

(** *** 1) Graph evidence *)

(** [any(p in nstr for p in pats)] *)
Definition any_pattern (nstr : string) (pats : list string) : bool :=
  existsb (λ p, contains p nstr) pats.

Definition count_node (counts : gmap string Z) (nstr : string) : gmap string Z :=
  foldl (λ c rule, if any_pattern nstr rule.2 then add_to rule.1 1 c else c)
        counts CATEGORY_RULES.

Definition graph_counts (G : DiGraph) : gmap string Z :=
  foldl count_node zero_counts (elements (g_nodes G)).

(** *** Metadata sidecar ([<graph>.meta.json]) *)

(** The fields the analyzer reads; [None] is a missing or null field, a
    missing [all_permissions] is the empty list.  Fields of another JSON
    type, on which a conversion would raise after earlier variables were
    already set, are outside the model. *)
Record meta_full : Type := mkMeta {
  meta_apk_size_kb : option Z;
  meta_all_permissions : list string;
  meta_danger_perm_hits : option Z
}.

Inductive sidecar : Type :=
  | SidecarAbsent                    (* [meta_path.exists()] is false *)
  | SidecarUnreadable                (* [json.load] raises *)
  | SidecarLoaded (m : meta_full).

(** The three variables set in the [# Meta] block. *)
Record meta_vars : Type := mkVars {
  apk_size_kb : option Z;
  all_perm_shorts : list string;
  danger_perm_hits : Z
}.

Definition default_vars : meta_vars := mkVars None [] 0.

(** [int(v or 0)] *)
Definition int_or_zero (v : option Z) : Z := default 0 v.

(** [x or None] on an integer *)
Definition or_None (x : Z) : option Z := if x =? 0 then None else Some x.

Definition read_meta (sc : sidecar) : meta_vars :=
  match sc with
  | SidecarLoaded m =>
      mkVars (or_None (int_or_zero (meta_apk_size_kb m)))
             (split_last <$> meta_all_permissions m)
             (int_or_zero (meta_danger_perm_hits m))
  | SidecarAbsent | SidecarUnreadable => default_vars
  end.

Definition is_small (size : option Z) : bool :=
  match size with Some k => k <=? 400 | None => false end.

Definition is_large (size : option Z) : bool :=
  match size with Some k => 15000 <=? k | None => false end.

Definition benign_hint_hits (perms : list string) : nat :=
  (length (filter (λ p, p ∈ BENIGN_HINT_PERMS) perms)
   + length (filter (λ p, p = "C2D_MESSAGE") perms))%nat.

Definition benign_heavy (perms : list string) : bool :=
  (2 <=? benign_hint_hits perms)%nat.

(** *** 2) Manifest counts *)

Definition count_perm (counts : gmap string Z) (p : string) : gmap string Z :=
  let short := split_last p in
  let cat := match PERM_TO_CATEGORY !! p with
             | Some c => Some c
             | None => PERM_TO_CATEGORY !! short
             end in
  let counts := match cat with
                | Some c => add_to c 1 counts
                | None => counts
                end in
  if String.eqb short "C2D_MESSAGE" then add_to "background_ops" 1 counts
  else counts.

Definition manifest_counts (hits : Z) (perms : list string) : gmap string Z :=
  foldl count_perm
        (if 0 <? hits then add_to "dangerous_permissions" hits zero_counts
         else zero_counts)
        perms.

(** *** 3) Manifest caps *)

Definition caps (large : bool) : list (string * Z) :=
  if large then caps_large else caps_normal.

Definition cap_one (counts : gmap string Z) (kv : string * Z) : gmap string Z :=
  if kv.2 <? get counts kv.1 then <[kv.1 := kv.2]> counts else counts.

Definition apply_caps (cs : list (string * Z)) (counts : gmap string Z)
    : gmap string Z :=
  foldl cap_one counts cs.

(** Python [round] of the fraction [num / den] ([den > 0]): to the nearest
    integer, a tie to the even one. *)
Definition round_half_even (num den : Z) : Z :=
  let q := num / den in
  let r := num mod den in
  if 2 * r <? den then q
  else if den <? 2 * r then q + 1
  else if Z.even q then q else q + 1.

(** [if counts_g.get(k,0) == 0: counts_m[k] = 0] *)
Definition graph_gate (counts_g counts_m : gmap string Z) (k : string)
    : gmap string Z :=
  if get counts_g k =? 0 then <[k := 0]> counts_m else counts_m.

(** [if counts_g.get(k,0)==0: counts_m[k] = int(round(counts_m.get(k,0)*f))]
    with the factor [f = num/den]. *)
Definition graph_damp (counts_g : gmap string Z) (k : string) (num den : Z)
    (counts_m : gmap string Z) : gmap string Z :=
  if get counts_g k =? 0
  then <[k := round_half_even (get counts_m k * num) den]> counts_m
  else counts_m.

Definition suppress_manifest (large heavy : bool)
    (counts_g counts_m : gmap string Z) : gmap string Z :=
  if large && heavy then
    let counts_m := foldl (graph_gate counts_g) counts_m ["sms"; "admin_operations"] in
    let counts_m := graph_damp counts_g "device_info" 2 5 counts_m in
    let counts_m := graph_damp counts_g "file_operations" 2 5 counts_m in
    graph_damp counts_g "background_ops" 1 2 counts_m
  else counts_m.

(** The manifest counters as the scoring steps see them. *)
Definition final_manifest_counts (G : DiGraph) (mv : meta_vars) : gmap string Z :=
  let large := is_large (apk_size_kb mv) in
  suppress_manifest large (benign_heavy (all_perm_shorts mv)) (graph_counts G)
    (apply_caps (caps large)
       (manifest_counts (danger_perm_hits mv) (all_perm_shorts mv))).

(** *** 4) Blend factor *)

Definition beta (size : option Z) (heavy : bool) : R :=
  if is_small size then 0.55%R
  else if is_large size || heavy then 0.10%R
  else 0.25%R.

(** *** 5) Semantic sums, 6) normalisation and squash *)

(** [sum(W.get(cat,1.0)*counts[cat] for cat in counts)] *)
Definition weighted_sum (counts : gmap string Z) : R :=
  foldl (λ acc cat, (acc + W cat * IZR (get counts cat))%R) 0%R category_names.

Definition _squash (x K : R) : R :=
  if Rle_dec x 0 then 0%R else (K * tanh (x / K))%R.

Definition norm (G : DiGraph) : R :=
  (1 + INR (number_of_nodes G) / 400 + INR (number_of_edges G) / 800)%R.

Definition sem (G : DiGraph) (mv : meta_vars) : R :=
  let sem_g_raw := weighted_sum (graph_counts G) in
  let sem_m_raw := weighted_sum (final_manifest_counts G mv) in
  let sem_raw :=
    (sem_g_raw
     + beta (apk_size_kb mv) (benign_heavy (all_perm_shorts mv)) * sem_m_raw)%R in
  _squash (sem_raw / norm G) 120.

(** *** 7) Structural score *)

(** [math.log1p] *)
Definition log1p (x : R) : R := ln (1 + x).

(** [max((d for _, d in G.out_degree()), default=0)] *)
Definition max_out (G : DiGraph) : nat :=
  foldr Nat.max 0%nat (out_degree G <$> elements (g_nodes G)).

Definition structural (G : DiGraph) : R :=
  (0.6 * (0.2 * (log1p (INR (number_of_edges G)) + log1p (INR (number_of_nodes G)))
          + 0.5 * log1p (INR (max_out G))
          + 2 * density G))%R.

(** *** 8) Soft bonuses

    Every increment is a whole number, so the bonus is kept as an integer.
    The test [ratio >= 0.30] on [ratio = risk_core / total_cat_hits] is
    written without the division, [3 * total <= 10 * risk_core]. *)

Definition CRIT : list string :=
  ["sms"; "admin_operations"; "dynamic"; "dangerous_permissions"].

Definition both (counts_g counts_m : gmap string Z) (k : string) : Z :=
  get counts_g k + get counts_m k.

Definition crit_hits (counts_g counts_m : gmap string Z) : nat :=
  length (filter (λ k, 0 < both counts_g counts_m k) CRIT).

Definition ratio_bonus (counts_g counts_m : gmap string Z) : Z :=
  let total_cat_hits := sum_values counts_g + sum_values counts_m in
  let risk_core := both counts_g counts_m "sms"
                   + both counts_g counts_m "admin_operations"
                   + both counts_g counts_m "dynamic" in
  if 0 <? total_cat_hits then
    if 3 * total_cat_hits <=? 10 * risk_core then 2
    else if 2 * total_cat_hits <=? 10 * risk_core then 1
    else 0
  else 0.

(** The two co-occurrence rules: graph evidence for [a] or [b], combined
    evidence for [a], and combined evidence above one for [b]. *)
Definition pair_bonus (counts_g counts_m : gmap string Z) (a b : string) : Z :=
  if ((0 <? get counts_g a) || (0 <? get counts_g b))
     && (0 <? both counts_g counts_m a)
     && (1 <? both counts_g counts_m b)
  then 2 else 0.

Definition bonus (counts_g counts_m : gmap string Z) : Z :=
  (if (2 <=? crit_hits counts_g counts_m)%nat then 4 else 0)
  + ratio_bonus counts_g counts_m
  + pair_bonus counts_g counts_m "sms" "device_info"
  + pair_bonus counts_g counts_m "admin_operations" "crypto".

(** *** 9) Size multiplier and total *)

Definition size_multiplier (size : option Z) : R :=
  match size with
  | None => 1%R
  | Some k =>
      if k <=? 1000 then (1 * 1.1)%R
      else if 50000 <=? k then (1 * 0.95)%R
      else if 15000 <=? k then (1 * 0.92)%R
      else 1%R
  end.

Definition sem_plus_bonus (G : DiGraph) (mv : meta_vars) : R :=
  (sem G mv + IZR (bonus (graph_counts G) (final_manifest_counts G mv)))%R.

Definition total (G : DiGraph) (mv : meta_vars) : R :=
  (Rmax 0 (sem_plus_bonus G mv) * size_multiplier (apk_size_kb mv)
   + structural G)%R.

(** ** The analyzer *)

(** What [nx.read_graphml(graph_path)] yields. *)
Inductive graph_file : Type :=
  | GraphUnreadable                  (* the call raises *)
  | GraphRead (G : DiGraph).

(** The [malware_score] of the returned report. *)
Definition analyze_malware_semantically (gf : graph_file) (sc : sidecar) : R :=
  match gf with
  | GraphUnreadable => 0%R
  | GraphRead G =>
      if (number_of_nodes G =? 0)%nat then 0%R
      else total G (read_meta sc)
  end.

(** ** Batch scoring ([stream_score_dataset]) *)

(** What [build_fn(str(apk_path))] does for one package: it raises, or it
    leaves a graph file and possibly a sidecar, which [analyze_fn] then
    finds as given here. *)
Inductive build_outcome : Type :=
  | BuildRaised
  | BuildDone (gf : graph_file) (sc : sidecar).

Record apk : Type := mkApk {
  apk_name : string;
  apk_label : Z;
  apk_build : build_outcome
}.

(** A CSV row: [apk_name, malware_score, label]. *)
Definition row : Type := string * R * Z.

(** The body of the [try]: [Some] row written, or [None] after the
    [except] branch printed [SKIP]. *)
Definition score_package (a : apk) : option row :=
  match apk_build a with
  | BuildRaised => None
  | BuildDone gf sc =>
      Some (apk_name a, analyze_malware_semantically gf sc, apk_label a)
  end.

(** The loop over the data set, [processed] being the running counter;
    the result is the list of rows appended to the CSV, in order. *)
Fixpoint stream_rows (done : gset string) (limit : option nat)
    (processed : nat) (apks : list apk) : list row :=
  match apks with
  | [] => []
  | a :: rest =>
      if match limit with Some l => (l <=? processed)%nat | None => false end
      then []
      else if decide (apk_name a ∈ done)
           then stream_rows done limit (S processed) rest
           else match score_package a with
                | Some r => r :: stream_rows done limit (S processed) rest
                | None => stream_rows done limit (S processed) rest
                end
  end.

Definition stream_score_dataset (done : gset string) (limit : option nat)
    (apks : list apk) : list row :=
  stream_rows done limit 0 apks.

(** ** Structural metrics ([graph_features.compute_graph_metrics]) *)

Record graph_metrics : Type := mkMetrics {
  node_count : nat;
  edge_count : nat;
  m_density : R;
  avg_betweenness : R;
  avg_clustering : R;
  pagerank_max : R;
  avg_in_degree : R;
  avg_out_degree : R
}.

Definition zero_metrics : graph_metrics := mkMetrics 0 0 0 0 0 0 0 0.

(** [np.mean] of a non-empty list. *)
Definition np_mean (l : list R) : R :=
  (foldr Rplus 0 l / INR (length l))%R.

Section GraphFeatures.

(** The networkx algorithms called inside [try] blocks: the values of the
    returned per-node dict, or [None] when the call raises.  The last two
    run on [G.to_undirected()]. *)
Variable betweenness_centrality : DiGraph → option (list R).
Variable clustering_undirected : DiGraph → option (list R).
Variable pagerank_undirected : DiGraph → option (list R).

Definition compute_graph_metrics (G : DiGraph) : graph_metrics :=
  let N := number_of_nodes G in
  let E := number_of_edges G in
  if (N =? 0)%nat then mkMetrics 0 0 0 0 0 0 0 0
  else
    let in_degrees := (λ n, INR (in_degree G n)) <$> elements (g_nodes G) in
    let out_degrees := (λ n, INR (out_degree G n)) <$> elements (g_nodes G) in
    mkMetrics N E
      (density G)
      (match betweenness_centrality G with
       | Some vals => np_mean vals
       | None => 0
       end)
      (match clustering_undirected G with
       | Some vals => np_mean vals
       | None => 0
       end)
      (match pagerank_undirected G with
       | Some (v :: vals) => foldr Rmax v vals
       | _ => if (0 <? N)%nat then (1 / INR N)%R else 0%R
       end)
      (match in_degrees with [] => 0%R | _ => np_mean in_degrees end)
      (match out_degrees with [] => 0%R | _ => np_mean out_degrees end).

End GraphFeatures.

(** ** Properties of built graphs, as predicates on the edge table *)

Definition no_self_loop (G : DiGraph) : Prop :=
  map_Forall (λ e _, e.1 ≠ e.2) (g_edges G).

Definition no_stop_source (stop : gset string) (G : DiGraph) : Prop :=
  map_Forall (λ e _, e.1 ∉ stop) (g_edges G).

Definition no_stop_endpoint (stop : gset string) (G : DiGraph) : Prop :=
  map_Forall (λ e _, (e.1 ∉ stop) ∧ (e.2 ∉ stop)) (g_edges G).

(** Every node is an endpoint of some edge. *)
Definition nodes_covered (G : DiGraph) : Prop :=
  ∀ n, n ∈ g_nodes G →
       ∃ e w, g_edges G !! e = Some w ∧ (n = e.1 ∨ n = e.2).

(** ** Sample inputs *)

(** A class whose only method calls [Object] twice. *)
Definition calls_object_twice : list SemanticGraphs.dex_class :=
  [ SemanticGraphs.mkClass "LA;"
      [ ["Ljava/lang/Object;"; "Ljava/lang/Object;"] ] ].

(** One call between two methods of the same class. *)
Definition one_self_call
    : list (FeatureExtraction.method_node * FeatureExtraction.method_node) :=
  [ (FeatureExtraction.mkMethod "LA;" "f", FeatureExtraction.mkMethod "LA;" "g") ].

(** One caller method [LA;->run] with calls to 51 different methods of
    [LB;]. *)
Definition fan_out_51
    : list (FeatureExtraction.method_node * FeatureExtraction.method_node) :=
  (λ i, (FeatureExtraction.mkMethod "LA;" "run",
         FeatureExtraction.mkMethod "LB;" (String.concat "" (replicate i "m"))))
    <$> seq 0 51.

(** A class whose only method calls another class once. *)
Definition calls_once : list SemanticGraphs.dex_class :=
  [ SemanticGraphs.mkClass "LA;" [ ["LB;"] ] ].

(** A class whose only method calls itself. *)
Definition calls_itself : list SemanticGraphs.dex_class :=
  [ SemanticGraphs.mkClass "LA;" [ ["LA;"; "LA;"] ] ].

(** A class that calls [SmsManager] twice from one method. *)
Definition calls_sms_manager : list SemanticGraphs.dex_class :=
  [ SemanticGraphs.mkClass "Lcom/app/Main;"
      [ ["Landroid/telephony/SmsManager;"; "Landroid/telephony/SmsManager;"] ] ].

(** The sidecar of a large package with two benign-hint permissions. *)
Definition large_benign_sidecar : sidecar :=
  SidecarLoaded
    (mkMeta (Some 20000)
       [ "android.permission.SEND_SMS"; "android.permission.NFC";
         "android.permission.BLUETOOTH"; "android.permission.DEVICE_ADMIN" ]
       (Some 1)).

(** ** The size multiplier in the words of the specification

    Times 1.1 when the package is at most 1000 KB, times 0.95 when it is
    at least 50000 KB, times 0.92 when it lies in [15000, 50000) KB, and
    times 1.0 otherwise (which covers an unknown size). *)
Definition spec_size_multiplier (size : option Z) : R :=
  match size with
  | Some k =>
      if decide (k ≤ 1000) then 1.1%R
      else if decide (50000 ≤ k) then 0.95%R
      else if decide (15000 ≤ k ∧ k < 50000) then 0.92%R
      else 1%R
  | None => 1%R
  end.

(** * Theorems *)

(** ** The edge table under the graph operations *)

Section EdgeInvariants.

Variable P : string * string → Z → Prop.

Lemma count_call_Forall G src dst :
  (∀ w, P (src, dst) w) →
  map_Forall P (g_edges G) →
  map_Forall P (g_edges (count_call G src dst)).
Proof.
  intros Hnew HG. unfold count_call.
  destruct (g_edges G !! (src, dst)); simpl;
    apply map_Forall_insert_2; auto.
Qed.

Lemma foldr_delete_Forall (m : gmap (string * string) Z) l :
  map_Forall P m → map_Forall P (foldr delete m l).
Proof.
  intros Hm. induction l as [|e l IH]; simpl; [done|].
  by apply map_Forall_delete.
Qed.

Lemma remove_edges_from_Forall G l :
  map_Forall P (g_edges G) → map_Forall P (g_edges (remove_edges_from G l)).
Proof. apply foldr_delete_Forall. Qed.

Lemma remove_nodes_from_Forall G l :
  map_Forall P (g_edges G) → map_Forall P (g_edges (remove_nodes_from G l)).
Proof.
  intros HG e w [He _]%map_lookup_filter_Some. by apply HG.
Qed.

End EdgeInvariants.

Lemma foldr_delete_lookup (m : gmap (string * string) Z) l e :
  foldr delete m l !! e = if decide (e ∈ l) then None else m !! e.
Proof.
  induction l as [|e' l IH]; cbn [foldr].
  - by rewrite decide_False by apply not_elem_of_nil.
  - destruct (decide (e' = e)) as [->|Hne].
    + rewrite lookup_delete_eq. rewrite decide_True; [done|]. apply list_elem_of_here.
    + rewrite lookup_delete_ne by done. rewrite IH.
      destruct (decide (e ∈ l)) as [Hin|Hnin].
      * rewrite decide_True; [done|]. by apply list_elem_of_further.
      * rewrite decide_False; [done|].
        intros [?|?]%elem_of_cons; congruence.
Qed.

(** Removing the light edges keeps exactly the edges that reach the
    threshold. *)
Lemma remove_light_edges_lookup G min_weight e :
  g_edges (remove_edges_from G (light_edges G min_weight)) !! e
  = match g_edges G !! e with
    | Some w => if decide (w < min_weight) then None else Some w
    | None => None
    end.
Proof.
  unfold remove_edges_from, light_edges. cbn [g_edges].
  rewrite foldr_delete_lookup.
  destruct (g_edges G !! e) as [w|] eqn:He.
  - destruct (decide (w < min_weight)) as [Hw|Hw].
    + rewrite decide_True; [done|].
      apply list_elem_of_fmap. exists (e, w). split; [done|].
      apply elem_of_map_to_list, map_lookup_filter_Some. done.
    + rewrite decide_False; [done|].
      intros [[e' w'] [-> Hin]]%list_elem_of_fmap.
      apply elem_of_map_to_list, map_lookup_filter_Some in Hin as [He' Hlt].
      simpl in *. congruence.
  - by destruct (decide _).
Qed.

(** Counting one call adds one to the total weight. *)
Lemma total_weight_count_call G src dst :
  total_weight (count_call G src dst) = total_weight G + 1.
Proof.
  unfold total_weight, count_call.
  assert (Hcomm : ∀ (m : gmap (string * string) Z) (j1 j2 : string * string)
                    (z1 z2 y : Z),
             j1 ≠ j2 → m !! j1 = Some z1 → m !! j2 = Some z2 →
             z1 + (z2 + y) = z2 + (z1 + y)) by (intros; lia).
  destruct (g_edges G !! (src, dst)) as [w|] eqn:He; simpl.
  - rewrite <-insert_delete_eq.
    rewrite map_fold_insert_L; [|by eauto|by rewrite lookup_delete_eq].
    rewrite (map_fold_delete_L _ _ (src, dst) w (g_edges G)); [lia|by eauto|done].
  - rewrite map_fold_insert_L; [lia|by eauto|done].
Qed.

Lemma count_call_nodes_covered G src dst :
  nodes_covered G → nodes_covered (count_call G src dst).
Proof.
  intros HG n Hn. unfold count_call in *.
  destruct (g_edges G !! (src, dst)) as [w|] eqn:He; simpl in *.
  - destruct (HG n Hn) as (e & w' & Hl & Hend).
    destruct (decide (e = (src, dst))) as [->|Hne].
    + exists (src, dst), (w + 1). by rewrite lookup_insert_eq.
    + exists e, w'. by rewrite lookup_insert_ne.
  - apply elem_of_union in Hn as [Hn|Hn].
    { apply elem_of_singleton in Hn as ->.
      exists (src, dst), 1. rewrite lookup_insert_eq. auto. }
    apply elem_of_union in Hn as [Hn|Hn].
    { apply elem_of_singleton in Hn as ->.
      exists (src, dst), 1. rewrite lookup_insert_eq. auto. }
    destruct (HG n Hn) as (e & w' & Hl & Hend).
    exists e, w'. rewrite lookup_insert_ne; [done|]. congruence.
Qed.

(** ** The builder of [semantic_graphs.py] *)

Section SemanticScan.
Import SemanticGraphs.

(** An invariant of the edge table that only asks something of the
    caller class and of the pair being different survives the scan of a
    method. *)
Lemma scan_xrefs_Forall (Q : string → Prop) xrefs : ∀ i src G,
  Q src →
  map_Forall (λ e _, e.1 ≠ e.2 ∧ Q e.1) (g_edges G) →
  map_Forall (λ e _, e.1 ≠ e.2 ∧ Q e.1) (g_edges (scan_xrefs i src xrefs G)).
Proof.
  induction xrefs as [|dst rest IH]; intros i src G Hsrc HG; cbn [scan_xrefs]; [done|].
  destruct (cap_per_method <=? i)%nat; [done|].
  apply IH; [done|].
  destruct (String.eqb src dst) eqn:Heq; [done|].
  apply String.eqb_neq in Heq.
  apply count_call_Forall; [|done]. intros _. by split.
Qed.

Lemma scan_methods_Forall (Q : string → Prop) src methods : ∀ G,
  Q src →
  map_Forall (λ e _, e.1 ≠ e.2 ∧ Q e.1) (g_edges G) →
  map_Forall (λ e _, e.1 ≠ e.2 ∧ Q e.1)
    (g_edges (foldl (λ G xrefs, scan_xrefs 0 src xrefs G) G methods)).
Proof.
  induction methods as [|m rest IH]; intros G Hsrc HG; simpl; [done|].
  apply IH; [done|]. by apply scan_xrefs_Forall.
Qed.

Lemma scan_classes_Forall classes : ∀ G,
  map_Forall (λ e _, e.1 ≠ e.2 ∧ e.1 ∉ STOP_CLASSES) (g_edges G) →
  map_Forall (λ e _, e.1 ≠ e.2 ∧ e.1 ∉ STOP_CLASSES)
    (g_edges (foldl scan_class G classes)).
Proof.
  induction classes as [|cls rest IH]; intros G HG; simpl; [done|].
  apply IH. unfold scan_class.
  destruct (decide (get_name cls ∈ STOP_CLASSES)) as [|Hout]; [done|].
  by apply (scan_methods_Forall (λ c, c ∉ STOP_CLASSES)).
Qed.

Lemma build_Forall classes min_weight :
  map_Forall (λ e _, e.1 ≠ e.2 ∧ e.1 ∉ STOP_CLASSES)
    (g_edges (build_api_graph_compact classes min_weight)).
Proof.
  unfold build_api_graph_compact, scan_classes.
  assert (H0 : map_Forall (λ (e : string * string) (_ : Z),
                             e.1 ≠ e.2 ∧ e.1 ∉ STOP_CLASSES)
                          (g_edges (foldl scan_class empty_graph classes))).
  { apply scan_classes_Forall. apply map_Forall_empty. }
  destruct (1 <? min_weight); [|done].
  by apply remove_edges_from_Forall.
Qed.

(** The scan of a method reads its first [cap_per_method - i] references
    only. *)
Lemma scan_xrefs_firstn xrefs : ∀ i src G,
  scan_xrefs i src xrefs G
  = scan_xrefs i src (firstn (cap_per_method - i) xrefs) G.
Proof.
  induction xrefs as [|dst rest IH]; intros i src G.
  - by rewrite firstn_nil.
  - cbn [scan_xrefs].
    destruct (cap_per_method <=? i)%nat eqn:Hcap.
    + apply Nat.leb_le in Hcap.
      replace (cap_per_method - i)%nat with 0%nat by lia. done.
    + apply Nat.leb_gt in Hcap.
      replace (cap_per_method - i)%nat with (S (cap_per_method - S i)) by lia.
      rewrite firstn_cons. cbn [scan_xrefs].
      apply Nat.leb_gt in Hcap. rewrite Hcap.
      apply IH.
Qed.

(** The scan of a method counts at most [cap_per_method - i] calls. *)
Lemma scan_xrefs_weight xrefs : ∀ i src G,
  total_weight (scan_xrefs i src xrefs G)
  ≤ total_weight G + Z.of_nat (cap_per_method - i).
Proof.
  induction xrefs as [|dst rest IH]; intros i src G; cbn [scan_xrefs]; [lia|].
  destruct (cap_per_method <=? i)%nat eqn:Hcap; [lia|].
  apply Nat.leb_gt in Hcap.
  etrans; [apply IH|].
  destruct (String.eqb src dst); [lia|].
  rewrite total_weight_count_call. lia.
Qed.

Lemma scan_class_truncate G cls :
  scan_class G (truncate_class cls) = scan_class G cls.
Proof.
  unfold scan_class, truncate_class. simpl.
  destruct (decide (get_name cls ∈ STOP_CLASSES)); [done|].
  generalize (get_name cls) as src. intros src. revert G.
  induction (get_methods cls) as [|m rest IH]; intros G; simpl; [done|].
  rewrite IH. f_equal. symmetry. apply (scan_xrefs_firstn m 0).
Qed.

Lemma scan_classes_truncate classes : ∀ G,
  foldl scan_class G (truncate_class <$> classes) = foldl scan_class G classes.
Proof.
  induction classes as [|cls rest IH]; intros G; simpl; [done|].
  by rewrite scan_class_truncate, IH.
Qed.

Lemma scan_xrefs_covered xrefs : ∀ i src G,
  nodes_covered G → nodes_covered (scan_xrefs i src xrefs G).
Proof.
  induction xrefs as [|dst rest IH]; intros i src G HG; cbn [scan_xrefs]; [done|].
  destruct (cap_per_method <=? i)%nat; [done|].
  apply IH. destruct (String.eqb src dst); [done|].
  by apply count_call_nodes_covered.
Qed.

Lemma scan_classes_covered classes : nodes_covered (scan_classes classes).
Proof.
  unfold scan_classes.
  assert (H0 : nodes_covered empty_graph).
  { intros n Hn. simpl in Hn. by apply not_elem_of_empty in Hn. }
  revert H0. generalize empty_graph as G.
  induction classes as [|cls rest IH]; intros G HG; simpl; [done|].
  apply IH. unfold scan_class.
  destruct (decide (get_name cls ∈ STOP_CLASSES)); [done|].
  revert G HG. induction (get_methods cls) as [|m ms IHm]; intros G HG; simpl; [done|].
  apply IHm. by apply scan_xrefs_covered.
Qed.

(** The threshold step never touches the node set. *)
Lemma build_nodes classes min_weight :
  g_nodes (build_api_graph_compact classes min_weight)
  = g_nodes (scan_classes classes).
Proof.
  unfold build_api_graph_compact. by destruct (1 <? min_weight).
Qed.

End SemanticScan.

(** ** The builder of [feature_extraction.py] *)

Lemma feature_scan_Forall cg_edges : ∀ G,
  no_stop_endpoint FeatureExtraction.STOP_CLASSES G →
  no_stop_endpoint FeatureExtraction.STOP_CLASSES
    (foldl FeatureExtraction.add_call G cg_edges).
Proof.
  induction cg_edges as [|edge rest IH]; intros G HG; simpl; [done|].
  apply IH. unfold FeatureExtraction.add_call.
  destruct (decide _) as [|Hout]; [done|].
  apply count_call_Forall; [|done]. intros _. simpl. tauto.
Qed.

Lemma feature_build_Forall cg_edges min_weight :
  no_stop_endpoint FeatureExtraction.STOP_CLASSES
    (FeatureExtraction.build_api_graph_compact cg_edges min_weight).
Proof.
  unfold no_stop_endpoint, FeatureExtraction.build_api_graph_compact.
  apply remove_nodes_from_Forall, remove_edges_from_Forall.
  apply feature_scan_Forall, map_Forall_empty.
Qed.

(** ** Graph construction: noise filtering and the fan-out cap *)

(** C3, as stated, fails on both builders.  The builder of
    [semantic_graphs.py] tests the stop-set on the caller class only: a class
    that calls [Ljava/lang/Object;] twice yields an edge whose destination is
    in the stop-set.  The builder of [feature_extraction.py] does not skip
    self-loops: a call between two methods of one class yields the edge
    [(LA;, LA;)]. *)
Lemma builders_keep_noise_edges :
  ¬ no_stop_endpoint SemanticGraphs.STOP_CLASSES
      (SemanticGraphs.build_api_graph_compact calls_object_twice
         SemanticGraphs.default_min_weight)
  ∧ ¬ no_self_loop
      (FeatureExtraction.build_api_graph_compact one_self_call
         FeatureExtraction.default_min_weight).
Proof.
  split; intros H.
  - assert (He : g_edges (SemanticGraphs.build_api_graph_compact
                            calls_object_twice SemanticGraphs.default_min_weight)
                 !! ("LA;", "Ljava/lang/Object;") = Some 2)
      by (vm_compute; reflexivity).
    destruct (H _ _ He) as [_ Hdst]. apply Hdst.
    apply (bool_decide_unpack _). vm_compute. exact I.
  - assert (He : g_edges (FeatureExtraction.build_api_graph_compact
                            one_self_call FeatureExtraction.default_min_weight)
                 !! ("LA;", "LA;") = Some 1)
      by (vm_compute; reflexivity).
    by apply (H _ _ He).
Qed.

(** C3 (amended): for every input, the graph built by [semantic_graphs.py]
    has no self-loop edge and no edge whose source is in its stop-set, and
    the graph built by [feature_extraction.py] has no edge with an endpoint
    in its stop-set. *)
Theorem built_graph_noise_filtering :
  (∀ classes min_weight,
     no_self_loop (SemanticGraphs.build_api_graph_compact classes min_weight)
     ∧ no_stop_source SemanticGraphs.STOP_CLASSES
         (SemanticGraphs.build_api_graph_compact classes min_weight))
  ∧ (∀ cg_edges min_weight,
       no_stop_endpoint FeatureExtraction.STOP_CLASSES
         (FeatureExtraction.build_api_graph_compact cg_edges min_weight)).
Proof.
  split.
  - intros classes min_weight.
    pose proof (build_Forall classes min_weight) as H.
    split; intros e w He; by destruct (H e w He).
  - apply feature_build_Forall.
Qed.

(** C4, as stated, fails on the builder of [feature_extraction.py], which
    has no fan-out cap: 51 calls made by the single method [LA;->run] are all
    counted. *)
Lemma feature_builder_counts_51_calls :
  Forall (λ e, e.1 = FeatureExtraction.mkMethod "LA;" "run") fan_out_51
  ∧ g_edges (FeatureExtraction.build_api_graph_compact fan_out_51
               FeatureExtraction.default_min_weight)
    !! ("LA;", "LB;") = Some 51
  ∧ ¬ (total_weight (FeatureExtraction.build_api_graph_compact fan_out_51
                       FeatureExtraction.default_min_weight)
       ≤ Z.of_nat SemanticGraphs.cap_per_method).
Proof.
  split; [|split].
  - unfold fan_out_51. apply Forall_fmap, Forall_forall. done.
  - vm_compute. reflexivity.
  - assert (Hw : total_weight (FeatureExtraction.build_api_graph_compact
                   fan_out_51 FeatureExtraction.default_min_weight) = 51)
      by (vm_compute; reflexivity).
    rewrite Hw. unfold SemanticGraphs.cap_per_method. lia.
Qed.

(** C4 (amended): in the builder of [semantic_graphs.py] only the first 50
    call references of a method are read, so at most 50 calls are counted
    per method and the references after the 50th change no edge weight; the
    built graph is the one of the input cut down to 50 references per
    method. *)
Theorem fan_out_cap_semantic_builder :
  (∀ src xrefs G,
     SemanticGraphs.scan_xrefs 0 src xrefs G
     = SemanticGraphs.scan_xrefs 0 src (firstn 50 xrefs) G)
  ∧ (∀ src xrefs G,
       total_weight (SemanticGraphs.scan_xrefs 0 src xrefs G)
       ≤ total_weight G + 50)
  ∧ (∀ classes min_weight,
       SemanticGraphs.build_api_graph_compact
         (SemanticGraphs.truncate_class <$> classes) min_weight
       = SemanticGraphs.build_api_graph_compact classes min_weight).
Proof.
  split; [|split].
  - intros src xrefs G. apply (scan_xrefs_firstn xrefs 0).
  - intros src xrefs G. apply (scan_xrefs_weight xrefs 0).
  - intros classes min_weight.
    unfold SemanticGraphs.build_api_graph_compact, SemanticGraphs.scan_classes.
    by rewrite scan_classes_truncate.
Qed.

(** ** Counters *)

Lemma get_insert_eq (counts : gmap string Z) k v : get (<[k := v]> counts) k = v.
Proof. unfold get. by rewrite lookup_insert_eq. Qed.

Lemma get_insert_ne (counts : gmap string Z) k k' v :
  k ≠ k' → get (<[k := v]> counts) k' = get counts k'.
Proof. intros Hne. unfold get. by rewrite lookup_insert_ne. Qed.

Lemma get_zero_counts k : get zero_counts k = 0.
Proof.
  unfold get, zero_counts.
  destruct (list_to_map _ !! k) as [z|] eqn:Hk; [|done].
  apply elem_of_list_to_map_2, list_elem_of_fmap in Hk as (k' & Heq & _).
  by inversion Heq.
Qed.

(** ** Manifest caps *)

Lemma cap_one_same counts k v :
  get (cap_one counts (k, v)) k = Z.min (get counts k) v.
Proof.
  unfold cap_one. simpl.
  destruct (v <? get counts k) eqn:Hlt.
  - apply Z.ltb_lt in Hlt. rewrite get_insert_eq. lia.
  - apply Z.ltb_ge in Hlt. lia.
Qed.

Lemma cap_one_other counts kv k :
  kv.1 ≠ k → get (cap_one counts kv) k = get counts k.
Proof.
  intros Hne. unfold cap_one.
  destruct (kv.2 <? get counts kv.1); [|done]. by apply get_insert_ne.
Qed.

Lemma apply_caps_other cs : ∀ counts k,
  k ∉ cs.*1 → get (apply_caps cs counts) k = get counts k.
Proof.
  induction cs as [|kv rest IH]; intros counts k Hk; [done|].
  apply not_elem_of_cons in Hk as [Hne Hk].
  unfold apply_caps in *. cbn [foldl].
  rewrite IH by done. apply cap_one_other. congruence.
Qed.

Lemma apply_caps_lookup cs : ∀ counts k v,
  NoDup cs.*1 → (k, v) ∈ cs →
  get (apply_caps cs counts) k = Z.min (get counts k) v.
Proof.
  induction cs as [|kv rest IH]; intros counts k v Hnd Hin.
  { by apply not_elem_of_nil in Hin. }
  rewrite fmap_cons in Hnd. apply NoDup_cons in Hnd as [Hfresh Hnd].
  apply elem_of_cons in Hin as [<-|Hin].
  - change (apply_caps ((k, v) :: rest) counts)
      with (apply_caps rest (cap_one counts (k, v))).
    rewrite apply_caps_other by done. apply cap_one_same.
  - change (apply_caps (kv :: rest) counts)
      with (apply_caps rest (cap_one counts kv)).
    rewrite (IH _ k v) by done. f_equal.
    apply cap_one_other. intros Heq. apply Hfresh.
    apply list_elem_of_fmap. by exists (k, v).
Qed.

Lemma caps_NoDup large : NoDup (caps large).*1.
Proof. destruct large; apply (bool_decide_unpack _); vm_compute; exact I. Qed.

(** C8: the cap step clamps every capped category to its cap: the count
    after the step is the minimum of the count before it and the cap of the
    size class; ten dangerous-permission hits on a package of normal size
    become six. *)
Theorem manifest_caps_clamp :
  (∀ (large : bool) (counts : gmap string Z) (k : string) (v : Z),
     (k, v) ∈ caps large →
     get (apply_caps (caps large) counts) k = Z.min (get counts k) v)
  ∧ get (manifest_counts 10 []) "dangerous_permissions" = 10
  ∧ get (apply_caps (caps false) (manifest_counts 10 []))
        "dangerous_permissions" = 6.
Proof.
  split; [|split].
  - intros large counts k v Hin. apply apply_caps_lookup; [|done].
    apply caps_NoDup.
  - vm_compute. reflexivity.
  - vm_compute. reflexivity.
Qed.

(** The cap step on a large package with three SMS permissions. *)
Lemma manifest_caps_clamp_witness :
  ("sms", 1) ∈ caps true
  ∧ get (apply_caps (caps true)
           (manifest_counts 0 ["READ_SMS"; "SEND_SMS"; "RECEIVE_SMS"])) "sms"
    = Z.min (get (manifest_counts 0 ["READ_SMS"; "SEND_SMS"; "RECEIVE_SMS"]) "sms") 1.
Proof.
  assert (Hin : ("sms", 1) ∈ caps true) by (vm_compute; apply list_elem_of_here).
  split; [exact Hin|].
  exact (proj1 manifest_caps_clamp true
           (manifest_counts 0 ["READ_SMS"; "SEND_SMS"; "RECEIVE_SMS"]) "sms" 1 Hin).
Defined.

(** ** Graph-conditioned suppression *)

Lemma graph_gate_same counts_g counts_m k :
  get (graph_gate counts_g counts_m k) k
  = if get counts_g k =? 0 then 0 else get counts_m k.
Proof.
  unfold graph_gate. destruct (get counts_g k =? 0); [|done].
  apply get_insert_eq.
Qed.

Lemma graph_gate_other counts_g counts_m k k' :
  k ≠ k' → get (graph_gate counts_g counts_m k) k' = get counts_m k'.
Proof.
  intros Hne. unfold graph_gate. destruct (get counts_g k =? 0); [|done].
  by apply get_insert_ne.
Qed.

Lemma graph_damp_other counts_g k num den counts_m k' :
  k ≠ k' → get (graph_damp counts_g k num den counts_m) k' = get counts_m k'.
Proof.
  intros Hne. unfold graph_damp. destruct (get counts_g k =? 0); [|done].
  by apply get_insert_ne.
Qed.

Lemma suppress_manifest_gated counts_g counts_m k :
  k = "sms" ∨ k = "admin_operations" →
  get (suppress_manifest true true counts_g counts_m) k
  = if get counts_g k =? 0 then 0 else get counts_m k.
Proof.
  intros Hk. unfold suppress_manifest. cbn [andb foldl].
  destruct Hk as [-> | ->].
  - rewrite !graph_damp_other by done.
    rewrite graph_gate_other by done. apply graph_gate_same.
  - rewrite !graph_damp_other by done.
    rewrite graph_gate_same. by rewrite graph_gate_other.
Qed.

(** C7: on a large package (size at least 15000 KB) with two or more
    benign-hint permissions, the manifest counts of [sms] and
    [admin_operations] after the suppression step are 0 when the graph
    count of the category is 0, and are the capped manifest counts when it
    is not. *)
Theorem large_benign_manifest_gate (G : DiGraph) (mv : meta_vars)
    (size : Z) (k : string) :
  apk_size_kb mv = Some size →
  15000 ≤ size →
  (2 ≤ benign_hint_hits (all_perm_shorts mv))%nat →
  k = "sms" ∨ k = "admin_operations" →
  (get (graph_counts G) k = 0 → get (final_manifest_counts G mv) k = 0)
  ∧ (get (graph_counts G) k ≠ 0 →
     get (final_manifest_counts G mv) k
     = get (apply_caps (caps true)
              (manifest_counts (danger_perm_hits mv) (all_perm_shorts mv))) k).
Proof.
  intros Hsize Hlarge Hhints Hk. unfold final_manifest_counts.
  assert (Hl : is_large (apk_size_kb mv) = true).
  { rewrite Hsize. simpl. by apply Z.leb_le. }
  assert (Hb : benign_heavy (all_perm_shorts mv) = true).
  { unfold benign_heavy. by apply Nat.leb_le. }
  rewrite Hl, Hb, suppress_manifest_gated by done.
  split; intros Hg.
  - by rewrite Hg.
  - apply Z.eqb_neq in Hg. by rewrite Hg.
Qed.

(** A large package with two benign hints and [DEVICE_ADMIN] in the
    manifest, whose graph shows SMS but no administrative evidence. *)
Lemma large_benign_manifest_gate_witness :
  apk_size_kb (read_meta large_benign_sidecar) = Some 20000
  ∧ 15000 ≤ 20000
  ∧ (2 ≤ benign_hint_hits (all_perm_shorts (read_meta large_benign_sidecar)))%nat
  ∧ ("admin_operations" = "sms" ∨ "admin_operations" = "admin_operations")
  ∧ (get (graph_counts (SemanticGraphs.build_api_graph_compact
                          calls_sms_manager 2)) "admin_operations" = 0 →
     get (final_manifest_counts
            (SemanticGraphs.build_api_graph_compact calls_sms_manager 2)
            (read_meta large_benign_sidecar)) "admin_operations" = 0).
Proof.
  assert (H1 : apk_size_kb (read_meta large_benign_sidecar) = Some 20000)
    by reflexivity.
  assert (H2 : 15000 ≤ 20000) by lia.
  assert (H3 : (2 ≤ benign_hint_hits
                      (all_perm_shorts (read_meta large_benign_sidecar)))%nat)
    by (vm_compute; lia).
  assert (H4 : "admin_operations" = "sms"
               ∨ "admin_operations" = "admin_operations")
    by (right; reflexivity).
  split; [exact H1|]. split; [exact H2|]. split; [exact H3|].
  split; [exact H4|].
  exact (proj1 (large_benign_manifest_gate
                  (SemanticGraphs.build_api_graph_compact calls_sms_manager 2)
                  (read_meta large_benign_sidecar) 20000 "admin_operations"
                  H1 H2 H3 H4)).
Defined.

(** ** Real-number facts used by the score *)

#[local] Open Scope R_scope.

Lemma log1p_nonneg x : 0 <= x → 0 <= log1p x.
Proof.
  intros [Hx| <-]; unfold log1p.
  - left. rewrite <-ln_1. apply ln_increasing; lra.
  - rewrite Rplus_0_r, ln_1. lra.
Qed.

Lemma log1p_pos x : 0 < x → 0 < log1p x.
Proof.
  intros Hx. unfold log1p. rewrite <-ln_1. apply ln_increasing; lra.
Qed.

Lemma density_nonneg G : 0 <= density G.
Proof.
  unfold density.
  destruct ((number_of_edges G =? 0)%nat || (number_of_nodes G <=? 1)%nat)
    eqn:Hc; [lra|].
  apply orb_false_iff in Hc as [_ Hn]. apply Nat.leb_gt in Hn.
  assert (2 <= INR (number_of_nodes G)).
  { change 2 with (INR 2). apply le_INR. lia. }
  pose proof (pos_INR (number_of_edges G)).
  apply Rmult_le_pos; [done|].
  left. apply Rinv_0_lt_compat. nra.
Qed.

Lemma structural_nonneg G : 0 <= structural G.
Proof.
  unfold structural.
  pose proof (log1p_nonneg _ (pos_INR (number_of_edges G))).
  pose proof (log1p_nonneg _ (pos_INR (number_of_nodes G))).
  pose proof (log1p_nonneg _ (pos_INR (max_out G))).
  pose proof (density_nonneg G). lra.
Qed.

Lemma structural_pos G : number_of_nodes G ≠ 0%nat → 0 < structural G.
Proof.
  intros HN. unfold structural.
  pose proof (log1p_nonneg _ (pos_INR (number_of_edges G))).
  assert (0 < log1p (INR (number_of_nodes G))).
  { apply log1p_pos. apply lt_0_INR. lia. }
  pose proof (log1p_nonneg _ (pos_INR (max_out G))).
  pose proof (density_nonneg G). lra.
Qed.

Lemma size_multiplier_spec size :
  size_multiplier size = spec_size_multiplier size.
Proof.
  destruct size as [k|]; [|done]. unfold size_multiplier, spec_size_multiplier.
  destruct (k <=? 1000)%Z eqn:H1.
  { apply Z.leb_le in H1. rewrite decide_True by done. lra. }
  apply Z.leb_gt in H1. rewrite decide_False by lia.
  destruct (50000 <=? k)%Z eqn:H2.
  { apply Z.leb_le in H2. rewrite decide_True by done. lra. }
  apply Z.leb_gt in H2. rewrite decide_False by lia.
  destruct (15000 <=? k)%Z eqn:H3.
  { apply Z.leb_le in H3. rewrite decide_True by lia. lra. }
  apply Z.leb_gt in H3. rewrite decide_False by lia. done.
Qed.

Lemma size_multiplier_pos size : 0 < size_multiplier size.
Proof.
  destruct size as [k|]; unfold size_multiplier; [|lra].
  destruct (k <=? 1000)%Z; [lra|].
  destruct (50000 <=? k)%Z; [lra|].
  destruct (15000 <=? k)%Z; lra.
Qed.

Lemma total_ge_structural G mv : structural G <= total G mv.
Proof.
  unfold total.
  pose proof (Rmax_l 0 (sem_plus_bonus G mv)).
  pose proof (size_multiplier_pos (apk_size_kb mv)). nra.
Qed.

Lemma analyze_zero_iff G sc :
  analyze_malware_semantically (GraphRead G) sc = 0
  ↔ number_of_nodes G = 0%nat.
Proof.
  unfold analyze_malware_semantically.
  destruct (number_of_nodes G =? 0)%nat eqn:HN.
  - apply Nat.eqb_eq in HN. done.
  - apply Nat.eqb_neq in HN. split; [|done]. intros Hz.
    pose proof (structural_pos G HN).
    pose proof (total_ge_structural G (read_meta sc)). lra.
Qed.

(** ** The final score *)

(** C5: the score of a graph with nodes is
    [max(0, sem + bonus) * sizeMultiplier + structural], with the size
    multiplier of the specification applied to the first term only, and it
    is never negative (on any input of the analyzer). *)
Theorem final_score_formula :
  (∀ G mv,
     total G mv
     = Rmax 0 (sem G mv + IZR (bonus (graph_counts G) (final_manifest_counts G mv)))
       * spec_size_multiplier (apk_size_kb mv)
       + structural G)
  ∧ (∀ G sc,
       analyze_malware_semantically (GraphRead G) sc
       = if (number_of_nodes G =? 0)%nat then 0 else total G (read_meta sc))
  ∧ (∀ gf sc, 0 <= analyze_malware_semantically gf sc).
Proof.
  split; [|split].
  - intros G mv. unfold total, sem_plus_bonus.
    by rewrite size_multiplier_spec.
  - done.
  - intros [|G] sc; simpl; [lra|].
    destruct (number_of_nodes G =? 0)%nat; [lra|].
    pose proof (structural_nonneg G).
    pose proof (total_ge_structural G (read_meta sc)). lra.
Qed.

(** ** Empty graphs and the zero score *)

(** C1, as stated, fails: a class that calls another class once yields one
    call edge, which the default threshold [min_weight = 2] removes; the
    built graph then has no edge but still its two nodes, and the analyzer
    does not return 0 for it. *)
Lemma threshold_leaves_isolated_nodes :
  number_of_edges (SemanticGraphs.scan_classes calls_once) = 1%nat
  ∧ number_of_edges (SemanticGraphs.build_api_graph_compact calls_once
                       SemanticGraphs.default_min_weight) = 0%nat
  ∧ number_of_nodes (SemanticGraphs.build_api_graph_compact calls_once
                       SemanticGraphs.default_min_weight) = 2%nat
  ∧ analyze_malware_semantically
      (GraphRead (SemanticGraphs.build_api_graph_compact calls_once
                    SemanticGraphs.default_min_weight))
      SidecarAbsent ≠ 0.
Proof.
  assert (HN : number_of_nodes (SemanticGraphs.build_api_graph_compact calls_once
                                  SemanticGraphs.default_min_weight) = 2%nat)
    by (vm_compute; reflexivity).
  split; [vm_compute; reflexivity|].
  split; [vm_compute; reflexivity|].
  split; [exact HN|].
  rewrite analyze_zero_iff, HN. done.
Qed.

(** C1 (amended): when no call is counted at all (every reference is a
    self-loop, comes from a stop-set class or lies beyond the fan-out cap),
    the builder returns a graph with 0 nodes and 0 edges and the analyzer
    returns exactly 0; the analyzer returns 0 for a readable graph exactly
    when the graph has no node; and when the [min_weight] threshold removes
    every counted edge, the built graph has 0 edges and the nodes it had
    before the threshold. *)
Theorem empty_graph_scores_zero :
  (∀ classes min_weight,
     g_edges (SemanticGraphs.scan_classes classes) = ∅ →
     number_of_nodes (SemanticGraphs.build_api_graph_compact classes min_weight)
     = 0%nat
     ∧ number_of_edges (SemanticGraphs.build_api_graph_compact classes min_weight)
       = 0%nat
     ∧ ∀ sc, analyze_malware_semantically
               (GraphRead (SemanticGraphs.build_api_graph_compact classes min_weight))
               sc = 0)
  ∧ (∀ G sc, analyze_malware_semantically (GraphRead G) sc = 0
             ↔ number_of_nodes G = 0%nat)
  ∧ (∀ classes min_weight,
       (1 < min_weight)%Z →
       map_Forall (λ _ w, (w < min_weight)%Z)
                  (g_edges (SemanticGraphs.scan_classes classes)) →
       number_of_edges (SemanticGraphs.build_api_graph_compact classes min_weight)
       = 0%nat
       ∧ g_nodes (SemanticGraphs.build_api_graph_compact classes min_weight)
         = g_nodes (SemanticGraphs.scan_classes classes)).
Proof.
  split; [|split; [apply analyze_zero_iff|]]; cycle 1.
  { intros classes min_weight Hmw Hlight. split; [|apply build_nodes].
    unfold number_of_edges, SemanticGraphs.build_api_graph_compact.
    apply Z.ltb_lt in Hmw. rewrite Hmw.
    apply map_size_empty_iff, map_eq. intros e.
    rewrite remove_light_edges_lookup, lookup_empty.
    destruct (g_edges (SemanticGraphs.scan_classes classes) !! e) as [w|] eqn:He;
      [|done].
    rewrite decide_True; [done|]. by apply (Hlight e w). }
  intros classes min_weight Hempty.
  assert (HN : number_of_nodes
                 (SemanticGraphs.build_api_graph_compact classes min_weight) = 0%nat).
  { unfold number_of_nodes. rewrite build_nodes.
    apply size_empty_iff, elem_of_equiv_empty. intros n Hn.
    destruct (scan_classes_covered classes n Hn) as (e & w & He & _).
    rewrite Hempty, lookup_empty in He. done. }
  split; [done|]. split.
  - unfold number_of_edges, SemanticGraphs.build_api_graph_compact.
    destruct (1 <? min_weight)%Z.
    + apply map_size_empty_iff, map_eq. intros e.
      rewrite remove_light_edges_lookup, Hempty, lookup_empty. done.
    + rewrite Hempty. apply map_size_empty.
  - intros sc. by apply analyze_zero_iff.
Qed.

(** A class whose only references are calls to itself. *)
Lemma empty_graph_scores_zero_witness :
  g_edges (SemanticGraphs.scan_classes calls_itself) = ∅
  ∧ number_of_nodes (SemanticGraphs.build_api_graph_compact calls_itself
                       SemanticGraphs.default_min_weight) = 0%nat
  ∧ number_of_edges (SemanticGraphs.build_api_graph_compact calls_itself
                       SemanticGraphs.default_min_weight) = 0%nat
  ∧ ∀ sc, analyze_malware_semantically
            (GraphRead (SemanticGraphs.build_api_graph_compact calls_itself
                          SemanticGraphs.default_min_weight)) sc = 0.
Proof.
  assert (H : g_edges (SemanticGraphs.scan_classes calls_itself) = ∅)
    by (vm_compute; reflexivity).
  split; [exact H|].
  exact (proj1 empty_graph_scores_zero calls_itself
           SemanticGraphs.default_min_weight H).
Defined.

(** ** Faults while scoring one package *)

(** C2, as stated, fails: a graph file that cannot be read does not make
    the analyzer raise; it returns the score 0, and the batch scorer
    appends a row with that score. *)
Lemma unreadable_graph_scored_zero :
  analyze_malware_semantically GraphUnreadable SidecarAbsent = 0
  ∧ stream_score_dataset ∅ None
      [ mkApk "bad.apk" 1 (BuildDone GraphUnreadable SidecarAbsent) ]
    = [ ("bad.apk", 0, 1%Z) ].
Proof. split; reflexivity. Qed.

(** C2 (amended): a package for which the builder raises gets no row and
    the batch goes on with the next package; a graph file that cannot be
    read is scored 0 by the analyzer and gets a row with that score; the
    analyzer returns 0 exactly for an unreadable graph file and for a
    graph without nodes. *)
Theorem fault_handling_per_package :
  (∀ name label, score_package (mkApk name label BuildRaised) = None)
  ∧ (∀ name label done processed rest,
       stream_rows done None processed (mkApk name label BuildRaised :: rest)
       = stream_rows done None (S processed) rest)
  ∧ (∀ name label sc,
       score_package (mkApk name label (BuildDone GraphUnreadable sc))
       = Some (name, 0, label))
  ∧ (∀ gf sc,
       analyze_malware_semantically gf sc = 0
       ↔ gf = GraphUnreadable
         ∨ ∃ G, gf = GraphRead G ∧ number_of_nodes G = 0%nat).
Proof.
  split; [done|]. split; [|split; [done|]].
  - intros name label done processed rest. cbn [stream_rows score_package apk_build apk_name].
    by destruct (decide (name ∈ done)).
  - intros [|G] sc.
    + split; [auto|done].
    + rewrite analyze_zero_iff. split.
      * intros HN. right. by exists G.
      * intros [?|(G' & [= <-] & HN)]; done.
Qed.

(** ** Structural metrics on an empty graph *)

(** C9: on a graph without nodes [compute_graph_metrics] returns, whatever
    the networkx algorithms would do, a result whose density,
    avg_betweenness, avg_clustering, pagerank_max, avg_in_degree and
    avg_out_degree are all 0. *)
Theorem empty_graph_metrics_zero
    (betweenness clustering pagerank : DiGraph → option (list R)) (G : DiGraph) :
  number_of_nodes G = 0%nat →
  compute_graph_metrics betweenness clustering pagerank G = zero_metrics
  ∧ m_density (compute_graph_metrics betweenness clustering pagerank G) = 0
  ∧ avg_betweenness (compute_graph_metrics betweenness clustering pagerank G) = 0
  ∧ avg_clustering (compute_graph_metrics betweenness clustering pagerank G) = 0
  ∧ pagerank_max (compute_graph_metrics betweenness clustering pagerank G) = 0
  ∧ avg_in_degree (compute_graph_metrics betweenness clustering pagerank G) = 0
  ∧ avg_out_degree (compute_graph_metrics betweenness clustering pagerank G) = 0.
Proof.
  intros HN. unfold compute_graph_metrics. rewrite HN. cbn. done.
Qed.

(** The empty graph, with networkx algorithms that always raise. *)
Lemma empty_graph_metrics_zero_witness :
  number_of_nodes empty_graph = 0%nat
  ∧ compute_graph_metrics (λ _, None) (λ _, None) (λ _, None) empty_graph
    = zero_metrics.
Proof.
  assert (H : number_of_nodes empty_graph = 0%nat) by reflexivity.
  split; [exact H|].
  exact (proj1 (empty_graph_metrics_zero (λ _, None) (λ _, None) (λ _, None)
                  empty_graph H)).
Defined.

(** ** A missing or unreadable sidecar *)

Lemma foldl_weighted_zero counts (l : list string) : ∀ acc,
  (∀ k, get counts k = 0%Z) →
  foldl (λ acc cat, acc + W cat * IZR (get counts cat)) acc l = acc.
Proof.
  induction l as [|cat rest IH]; intros acc Hz; simpl; [done|].
  rewrite IH by done. rewrite Hz. lra.
Qed.

Lemma weighted_sum_zero counts :
  (∀ k, get counts k = 0%Z) → weighted_sum counts = 0.
Proof. intros Hz. unfold weighted_sum. by apply foldl_weighted_zero. Qed.

Lemma final_manifest_counts_default G :
  final_manifest_counts G default_vars = zero_counts.
Proof.
  unfold final_manifest_counts.
  cbn [default_vars apk_size_kb all_perm_shorts danger_perm_hits is_large].
  change (benign_heavy []) with false.
  unfold suppress_manifest. cbn [andb].
  vm_compute. reflexivity.
Qed.

(** C10: with the sidecar absent or unreadable the analyzer scores the
    graph alone: every manifest count is 0, there is no benign hint, the
    blend factor is 0.25, the size multiplier is 1, and the score of a
    graph with nodes is
    [max(0, squash(semG / norm) + bonus) + structural] with the bonus taken
    on the graph counts only. *)
Theorem missing_sidecar_graph_only (G : DiGraph) (sc : sidecar) :
  sc = SidecarAbsent ∨ sc = SidecarUnreadable →
  (∀ k, get (final_manifest_counts G (read_meta sc)) k = 0%Z)
  ∧ benign_hint_hits (all_perm_shorts (read_meta sc)) = 0%nat
  ∧ beta (apk_size_kb (read_meta sc))
         (benign_heavy (all_perm_shorts (read_meta sc))) = 0.25
  ∧ size_multiplier (apk_size_kb (read_meta sc)) = 1
  ∧ analyze_malware_semantically (GraphRead G) sc
    = if (number_of_nodes G =? 0)%nat then 0
      else Rmax 0 (_squash (weighted_sum (graph_counts G) / norm G) 120
                   + IZR (bonus (graph_counts G) zero_counts))
           + structural G.
Proof.
  intros Hsc.
  assert (Hmv : read_meta sc = default_vars) by (by destruct Hsc as [-> | ->]).
  rewrite Hmv.
  split; [|split; [done|split; [done|split; [done|]]]].
  { intros k. rewrite final_manifest_counts_default. apply get_zero_counts. }
  unfold analyze_malware_semantically. rewrite Hmv.
  destruct (number_of_nodes G =? 0)%nat; [done|].
  unfold total, sem_plus_bonus, sem.
  rewrite final_manifest_counts_default.
  rewrite (weighted_sum_zero zero_counts) by apply get_zero_counts.
  cbn [default_vars apk_size_kb all_perm_shorts size_multiplier].
  rewrite Rmult_0_r, Rplus_0_r, Rmult_1_r. done.
Qed.

(** A graph with SMS evidence whose sidecar cannot be read. *)
Lemma missing_sidecar_graph_only_witness :
  (SidecarUnreadable = SidecarAbsent ∨ SidecarUnreadable = SidecarUnreadable)
  ∧ ∀ k, get (final_manifest_counts
                (SemanticGraphs.build_api_graph_compact calls_sms_manager 2)
                (read_meta SidecarUnreadable)) k = 0%Z.
Proof.
  assert (H : SidecarUnreadable = SidecarAbsent
              ∨ SidecarUnreadable = SidecarUnreadable) by (right; reflexivity).
  split; [exact H|].
  exact (proj1 (missing_sidecar_graph_only
                  (SemanticGraphs.build_api_graph_compact calls_sms_manager 2)
                  SidecarUnreadable H)).
Defined.

(** ** The squash on the real-number model

    The facts below are about [K * tanh (x / K)] on the real numbers.  They
    say nothing about the rounding of [math.tanh] on binary64 values. *)

Lemma tanh_alt x : tanh x = 1 - 2 / (exp x * exp x + 1).
Proof.
  unfold tanh, sinh, cosh. rewrite exp_Ropp.
  pose proof (exp_pos x). field. split; nra.
Qed.

Lemma tanh_lt_1 x : tanh x < 1.
Proof.
  rewrite tanh_alt. pose proof (exp_pos x).
  assert (0 < 2 / (exp x * exp x + 1)); [|lra].
  apply Rdiv_lt_0_compat; nra.
Qed.

Lemma tanh_increasing x y : x < y → tanh x < tanh y.
Proof.
  intros Hxy. rewrite !tanh_alt.
  pose proof (exp_pos x). pose proof (exp_increasing x y Hxy).
  assert (/ (exp y * exp y + 1) < / (exp x * exp x + 1)).
  { apply Rinv_lt_contravar; nra. }
  unfold Rdiv. lra.
Qed.

Lemma squash_real_model :
  (∀ x, x <= 0 → _squash x 120 = 0)
  ∧ (∀ x y, 0 < x → x < y → _squash x 120 < _squash y 120)
  ∧ (∀ x, _squash x 120 < 120)
  ∧ _squash 120 120 = 120 * tanh 1.
Proof.
  split; [|split; [|split]].
  - intros x Hx. unfold _squash. by destruct (Rle_dec x 0).
  - intros x y Hx Hxy. unfold _squash.
    destruct (Rle_dec x 0); [lra|]. destruct (Rle_dec y 0); [lra|].
    assert (tanh (x / 120) < tanh (y / 120)); [|lra].
    apply tanh_increasing. lra.
  - intros x. unfold _squash. destruct (Rle_dec x 0); [lra|].
    pose proof (tanh_lt_1 (x / 120)). lra.
  - unfold _squash. destruct (Rle_dec 120 0); [lra|].
    by replace (120 / 120) with 1 by lra.
Qed.
